(** * The summary proxy: [api/generate-summary.js]

    A shallow embedding of the serverless handler that forwards a prompt to
    the generative-text service and relays the generated text, together with
    the properties of its request/response behaviour.

    The handler is asynchronous JavaScript.  Its effects (reading the process
    environment, the outbound [fetch], the reply written on the [response]
    object) and its exceptions are threaded through a small monad that keeps
    the log of effects also when an exception is raised, as JavaScript does:
    what was sent before a [throw] stays sent. *)

From Stdlib Require Import String List ZArith Bool Lia.
From Stdlib Require Import Floats.SpecFloat DecimalString.
Import ListNotations.
Local Open Scope string_scope.

(** ** JavaScript values *)

Module JS.

(** The values that [JSON.parse] produces, and [undefined], which property
    reads produce.  A number is an IEEE double.  An object lists its own
    properties, each key once (of a key listed twice the first entry is the
    property); [JSON.parse] gives objects no other ones. *)
#[warnings="-register-all"]
Inductive value : Type :=
| JUndefined
| JNull
| JBool (b : bool)
| JNum (x : spec_float)
| JStr (s : string)
| JArr (items : list value)
| JObj (props : list (string * value)).

(** [v == null]: the test that optional chaining and destructuring make. *)
Definition nullish (v : value) : bool :=
  match v with
  | JUndefined | JNull => true
  | _ => false
  end.

(** ToBoolean, the test of [if (v)] and [!v]. *)
Definition to_boolean (v : value) : bool :=
  match v with
  | JUndefined | JNull => false
  | JBool b => b
  | JNum (S754_zero _) | JNum S754_nan => false
  | JNum _ => true
  | JStr EmptyString => false
  | JStr _ => true
  | JArr _ | JObj _ => true
  end.

(** The own property [k] of an object, [undefined] when there is none. *)
Fixpoint own_property (props : list (string * value)) (k : string) : value :=
  match props with
  | [] => JUndefined
  | (k', v) :: rest => if String.eqb k' k then v else own_property rest k
  end.

(** An Error object, as far as the handler looks at it. *)
Record Error : Type := mkError { name : string; message : string }.

(** Completion of an evaluation: a value, or a thrown Error. *)
Inductive completion (A : Type) : Type :=
| Normal (a : A)
| Throw (e : Error).
Arguments Normal {A} a.
Arguments Throw {A} e.

(** A settled promise. *)
Inductive settled (A : Type) : Type :=
| Resolved (a : A)
| Rejected (e : Error).
Arguments Resolved {A} a.
Arguments Rejected {A} e.

Definition bind_completion {A B : Type}
    (c : completion A) (k : A -> completion B) : completion B :=
  match c with
  | Normal a => k a
  | Throw e => Throw e
  end.

Notation "'let*' x ':=' c 'in' k" := (bind_completion c (fun x => k))
  (at level 10, x pattern, c at level 100, k at level 200).

Section PropertyAccess.

(** The messages of the TypeErrors raised by reading property [k] of
    [null] or [undefined], and by destructuring one of them; their wording
    is the engine's. *)
Variable read_of_nullish : value -> string -> string.
Variable destructure_of_nullish : value -> string.

(** The property [k] of a value that is not nullish, for an identifier [k]
    that names no built-in member ([length], the prototypes' methods): the
    handler reads [candidates], [content], [parts], [text], [prompt],
    [systemInstruction] and [model].  Primitives and arrays have no such
    property. *)
Definition member_of (v : value) (k : string) : value :=
  match v with
  | JObj props => own_property props k
  | _ => JUndefined
  end.

(** The property [0] of a value that is not nullish: the first element of
    an array, the first character of a string, the property ["0"] of an
    object. *)
Definition first_of (v : value) : value :=
  match v with
  | JArr (x :: _) => x
  | JStr (String c _) => JStr (String c EmptyString)
  | JObj props => own_property props "0"
  | _ => JUndefined
  end.

(** [v.k] and [v[0]]. *)
Definition get_member (v : value) (k : string) : completion value :=
  if nullish v then Throw (mkError "TypeError" (read_of_nullish v k))
  else Normal (member_of v k).

Definition get_first (v : value) : completion value :=
  if nullish v then Throw (mkError "TypeError" (read_of_nullish v "0"))
  else Normal (first_of v).

(** [v?.k] and [v?.[0]]: [undefined] on a nullish [v], the read otherwise.
    Every link of the handler's chain after the first is optional, so the
    short circuit of the rest of the chain is the short circuit of each
    link. *)
Definition opt_member (v : value) (k : string) : completion value :=
  if nullish v then Normal JUndefined else get_member v k.

Definition opt_first (v : value) : completion value :=
  if nullish v then Normal JUndefined else get_first v.

(** [const { prompt, systemInstruction, model } = v]. *)
Definition destructure_body (v : value) : completion (value * value * value) :=
  if nullish v then Throw (mkError "TypeError" (destructure_of_nullish v))
  else
    let* prompt := get_member v "prompt" in
    let* systemInstruction := get_member v "systemInstruction" in
    let* model := get_member v "model" in
    Normal (prompt, systemInstruction, model).

End PropertyAccess.

End JS.
Import JS.

(** ** The handler's world *)

(** The second argument of [fetch]. *)
Record RequestInit : Type := mkInit {
  init_method : string;
  init_headers : list (string * string);
  init_body : string
}.

(** The upstream's answer: its HTTP status and what [json()] settles to. *)
Record ApiResponse : Type := mkApiResponse {
  status : Z;
  json : settled value
}.

(** [Response.ok]: the status is in the range 200-299. *)
Definition ok (r : ApiResponse) : bool :=
  (200 <=? status r)%Z && (status r <=? 299)%Z.

(** What an invocation does to the outside. *)
Inductive Event : Type :=
| EnvRead (variable : string)
| Fetch (url : string) (init : RequestInit)
| Reply (code : Z) (payload : value).

(** Process environment, network, and the log of what has happened so far,
    oldest first.  The log of a process that has served earlier requests is
    not empty. *)
Record World : Type := mkWorld {
  env : string -> option string;
  net : string -> RequestInit -> settled ApiResponse;
  log : list Event
}.

Definition emit (ev : Event) (w : World) : World :=
  mkWorld (env w) (net w) (log w ++ [ev]).

(** Effectful computations: a completion and the world after it. *)
Definition M (A : Type) : Type := World -> completion A * World.

Definition ret {A : Type} (a : A) : M A := fun w => (Normal a, w).

Definition bind {A B : Type} (m : M A) (k : A -> M B) : M B :=
  fun w =>
    match m w with
    | (Normal a, w') => k a w'
    | (Throw e, w') => (Throw e, w')
    end.

Definition lift {A : Type} (c : completion A) : M A := fun w => (c, w).

(** [try { m } catch (error) { h error }]. *)
Definition try_catch {A : Type} (m : M A) (h : Error -> M A) : M A :=
  fun w =>
    match m w with
    | (Normal a, w') => (Normal a, w')
    | (Throw e, w') => h e w'
    end.

Notation "x <- m ;; k" := (bind m (fun x => k))
  (at level 61, m at next level, right associativity).

(** [process.env[variable]]. *)
Definition process_env (variable : string) : M (option string) :=
  fun w => (Normal (env w variable), emit (EnvRead variable) w).

(** [await fetch(url, init)]. *)
Definition fetch (url : string) (init : RequestInit) : M ApiResponse :=
  fun w =>
    let w' := emit (Fetch url init) w in
    match net w url init with
    | Resolved r => (Normal r, w')
    | Rejected e => (Throw e, w')
    end.

(** [await promise]. *)
Definition await {A : Type} (p : settled A) : M A :=
  match p with
  | Resolved a => ret a
  | Rejected e => lift (Throw e)
  end.

(** [response.status(code).json(payload)]: the host's response object
    records the reply. *)
Definition respond (code : Z) (payload : value) : M unit :=
  fun w => (Normal tt, emit (Reply code payload) w).

(** The inbound request. *)
Record Request : Type := mkRequest {
  method : string;
  body : value
}.

(** ** The handler *)

Definition GEMINI_API_URL : string :=
  "https://generativelanguage.googleapis.com/v1beta/models/gemini-2.5-flash-preview-05-20:generateContent".

(** The decimal digits of a status, as a template literal prints it. *)
Definition decimal (n : Z) : string := NilZero.string_of_int (Z.to_int n).

Section Handler.

(** The runtime's [JSON.stringify] and the engine's TypeError messages. *)
Variable JSON_stringify : value -> string.
Variable read_of_nullish : value -> string -> string.
Variable destructure_of_nullish : value -> string.

(** [apiResult.candidates?.[0]?.content?.parts?.[0]?.text] *)
Definition generated_text (apiResult : value) : completion value :=
  let* candidates := get_member read_of_nullish apiResult "candidates" in
  let* candidate := opt_first read_of_nullish candidates in
  let* content := opt_member read_of_nullish candidate "content" in
  let* parts := opt_member read_of_nullish content "parts" in
  let* part := opt_first read_of_nullish parts in
  opt_member read_of_nullish part "text".

(** The payload literal of the handler. *)
Definition build_payload (prompt systemInstruction : value) : value :=
  JObj [ ("contents", JArr [ JObj [ ("parts", JArr [ JObj [ ("text", prompt) ] ]) ] ]);
         ("systemInstruction", JObj [ ("parts", JArr [ JObj [ ("text", systemInstruction) ] ]) ]) ].

(** The [try] block. *)
Definition handler_try (request : Request) : M unit :=
  GEMINI_API_KEY <- process_env "GEMINI_API_KEY" ;;
  match GEMINI_API_KEY with
  | None | Some EmptyString =>
      respond 500 (JObj [ ("error", JStr "Server configuration error: GEMINI_API_KEY environment variable is missing.") ])
  | Some key =>
      fields <- lift (destructure_body read_of_nullish destructure_of_nullish (body request)) ;;
      let '(prompt, systemInstruction, model) := fields in
      let payload := build_payload prompt systemInstruction in
      apiResponse <- fetch (GEMINI_API_URL ++ "?key=" ++ key)
                       (mkInit "POST" [ ("Content-Type", "application/json") ]
                               (JSON_stringify payload)) ;;
      apiResult <- await (json apiResponse) ;;
      if ok apiResponse then
        generatedText <- lift (generated_text apiResult) ;;
        if to_boolean generatedText then
          respond 200 (JObj [ ("summary", generatedText) ])
        else
          respond 500 (JObj [ ("error", JStr "Gemini API returned an empty or invalid response.") ])
      else
        respond (status apiResponse)
                (JObj [ ("error", JStr ("Gemini API call failed with status " ++ decimal (status apiResponse)));
                        ("details", apiResult) ])
  end.

(** The [catch] block. *)
Definition handler_catch (error : Error) : M unit :=
  respond 500 (JObj [ ("error", JStr "Internal Server Error during proxy processing.");
                      ("details", JStr (message error)) ]).

Definition handler (request : Request) : M unit :=
  if negb (method request =? "POST") then
    respond 405 (JObj [ ("error", JStr "Method Not Allowed. This endpoint only accepts POST requests.") ])
  else
    try_catch (handler_try request) handler_catch.

End Handler.

(** ** The path of the generated text, in the specification's words *)

(** A value that is there: neither missing ([undefined]) nor [null]. *)
Definition present (v : value) : option value :=
  if nullish v then None else Some v.

Definition and_then {A B : Type} (o : option A) (k : A -> option B) : option B :=
  match o with
  | Some a => k a
  | None => None
  end.

(** First candidate, its content, the first part of it, its text: the value
    found by walking the response along that path, when every level down to
    the text is present. *)
Definition text_at_path (apiResult : value) : option value :=
  and_then (present apiResult) (fun root =>
  and_then (present (member_of root "candidates")) (fun candidates =>
  and_then (present (first_of candidates)) (fun candidate =>
  and_then (present (member_of candidate "content")) (fun content =>
  and_then (present (member_of content "parts")) (fun parts =>
  and_then (present (first_of parts)) (fun part =>
  present (member_of part "text"))))))).

(** Two bodies that are the same object but for the property [model]. *)
Definition same_but_model (b1 b2 : value) : Prop :=
  match b1, b2 with
  | JObj p1, JObj p2 =>
      forall k, k <> "model" -> own_property p1 k = own_property p2 k
  | _, _ => b1 = b2
  end.

(** The one call the handler makes upstream for a request, given the
    credential, and the upstream's answer to it in a world. *)
Definition upstream_call (stringify : value -> string) (key : string)
    (request : Request) : string * RequestInit :=
  (GEMINI_API_URL ++ "?key=" ++ key,
   mkInit "POST" [ ("Content-Type", "application/json") ]
     (stringify (build_payload (member_of (body request) "prompt")
                               (member_of (body request) "systemInstruction")))).

Definition upstream_answer (stringify : value -> string) (w : World)
    (key : string) (request : Request) : settled ApiResponse :=
  net w (fst (upstream_call stringify key request))
        (snd (upstream_call stringify key request)).

(** ** Observations of a run *)

(** The credential as the handler accepts it: set and not empty. *)
Definition credential (w : World) : option string :=
  match env w "GEMINI_API_KEY" with
  | Some (String c s) => Some (String c s)
  | _ => None
  end.

(** The events that running [m] in [w] adds to the log. *)
Definition new_events {A : Type} (m : M A) (w : World) : list Event :=
  skipn (length (log w)) (log (snd (m w))).

(** The outbound calls among some events. *)
Fixpoint outbound_calls (evs : list Event) : list (string * RequestInit) :=
  match evs with
  | [] => []
  | Fetch url init :: rest => (url, init) :: outbound_calls rest
  | _ :: rest => outbound_calls rest
  end.

(** The replies among some events. *)
Fixpoint replies (evs : list Event) : list (Z * value) :=
  match evs with
  | [] => []
  | Reply code payload :: rest => (code, payload) :: replies rest
  | _ :: rest => replies rest
  end.

(** ** The branches of the handler as a relation *)

(** [answers ... request w code payload]: the handler, run on [request] in
    [w], takes a branch that ends in [response.status(code).json(payload)].
    One constructor per branch of the source, in its order. *)
Inductive answers (stringify : value -> string)
    (read_of_nullish : value -> string -> string)
    (destructure_of_nullish : value -> string)
    (request : Request) (w : World) : Z -> value -> Prop :=
| answers_wrong_method :
    method request <> "POST" ->
    answers stringify read_of_nullish destructure_of_nullish request w 405
      (JObj [ ("error", JStr "Method Not Allowed. This endpoint only accepts POST requests.") ])
| answers_no_credential :
    method request = "POST" -> credential w = None ->
    answers stringify read_of_nullish destructure_of_nullish request w 500
      (JObj [ ("error", JStr "Server configuration error: GEMINI_API_KEY environment variable is missing.") ])
| answers_no_body key :
    method request = "POST" -> credential w = Some key ->
    nullish (body request) = true ->
    answers stringify read_of_nullish destructure_of_nullish request w 500
      (JObj [ ("error", JStr "Internal Server Error during proxy processing.");
              ("details", JStr (destructure_of_nullish (body request))) ])
| answers_fetch_rejected key e :
    method request = "POST" -> credential w = Some key ->
    nullish (body request) = false ->
    upstream_answer stringify w key request = Rejected e ->
    answers stringify read_of_nullish destructure_of_nullish request w 500
      (JObj [ ("error", JStr "Internal Server Error during proxy processing.");
              ("details", JStr (message e)) ])
| answers_json_rejected key resp e :
    method request = "POST" -> credential w = Some key ->
    nullish (body request) = false ->
    upstream_answer stringify w key request = Resolved resp ->
    json resp = Rejected e ->
    answers stringify read_of_nullish destructure_of_nullish request w 500
      (JObj [ ("error", JStr "Internal Server Error during proxy processing.");
              ("details", JStr (message e)) ])
| answers_summary key resp v t :
    method request = "POST" -> credential w = Some key ->
    nullish (body request) = false ->
    upstream_answer stringify w key request = Resolved resp ->
    json resp = Resolved v -> ok resp = true ->
    generated_text read_of_nullish v = Normal t -> to_boolean t = true ->
    answers stringify read_of_nullish destructure_of_nullish request w 200
      (JObj [ ("summary", t) ])
| answers_empty key resp v t :
    method request = "POST" -> credential w = Some key ->
    nullish (body request) = false ->
    upstream_answer stringify w key request = Resolved resp ->
    json resp = Resolved v -> ok resp = true ->
    generated_text read_of_nullish v = Normal t -> to_boolean t = false ->
    answers stringify read_of_nullish destructure_of_nullish request w 500
      (JObj [ ("error", JStr "Gemini API returned an empty or invalid response.") ])
| answers_extraction_raised key resp v e :
    method request = "POST" -> credential w = Some key ->
    nullish (body request) = false ->
    upstream_answer stringify w key request = Resolved resp ->
    json resp = Resolved v -> ok resp = true ->
    generated_text read_of_nullish v = Throw e ->
    answers stringify read_of_nullish destructure_of_nullish request w 500
      (JObj [ ("error", JStr "Internal Server Error during proxy processing.");
              ("details", JStr (message e)) ])
| answers_upstream_failure key resp v :
    method request = "POST" -> credential w = Some key ->
    nullish (body request) = false ->
    upstream_answer stringify w key request = Resolved resp ->
    json resp = Resolved v -> ok resp = false ->
    answers stringify read_of_nullish destructure_of_nullish request w (status resp)
      (JObj [ ("error", JStr ("Gemini API call failed with status " ++ decimal (status resp)));
              ("details", v) ]).

(** ** A runtime and stub worlds for concrete runs *)

Definition quote : string := String (Ascii.ascii_of_nat 34) EmptyString.

(** A serializer that stands in for [JSON.stringify] in concrete runs. *)
Fixpoint stub_stringify (v : value) : string :=
  match v with
  | JUndefined => "undefined"
  | JNull => "null"
  | JBool true => "true"
  | JBool false => "false"
  | JNum _ => "<number>"
  | JStr s => quote ++ s ++ quote
  | JArr items =>
      "[" ++ (fix each (l : list value) : string :=
                match l with
                | [] => ""
                | x :: rest => stub_stringify x ++ "," ++ each rest
                end) items ++ "]"
  | JObj props =>
      "{" ++ (fix each (l : list (string * value)) : string :=
                match l with
                | [] => ""
                | (k, x) :: rest => k ++ ":" ++ stub_stringify x ++ "," ++ each rest
                end) props ++ "}"
  end.

(** The wording of V8's TypeErrors. *)
Definition v8_read_of_nullish (v : value) (k : string) : string :=
  "Cannot read properties of "
    ++ match v with JNull => "null" | _ => "undefined" end
    ++ " (reading '" ++ k ++ "')".

Definition v8_destructure_of_nullish (v : value) : string :=
  "Cannot destructure property 'prompt' of 'request.body' as it is "
    ++ match v with JNull => "null" | _ => "undefined" end ++ ".".

(** The handler on that runtime. *)
Definition v8_handler : Request -> M unit :=
  handler stub_stringify v8_read_of_nullish v8_destructure_of_nullish.

(** An environment with at most the credential, an upstream with one answer
    to every call, and a process that has served nothing yet. *)
Definition stub_env (key : option string) : string -> option string :=
  fun variable => if variable =? "GEMINI_API_KEY" then key else None.

Definition stub_world (key : option string) (answer : settled ApiResponse) : World :=
  mkWorld (stub_env key) (fun _ _ => answer) [].

(** The upstream's expected success shape around a text. *)
Definition candidate_response (text : value) : value :=
  JObj [ ("candidates",
          JArr [ JObj [ ("content", JObj [ ("parts", JArr [ JObj [ ("text", text) ] ]) ]) ] ]) ].

Definition sample_request : Request :=
  mkRequest "POST"
    (JObj [ ("prompt", JStr "Summarise the ROI");
            ("systemInstruction", JStr "Be brief");
            ("model", JStr "gemini") ]).

(** A world with the credential set whose upstream answers every call with
    the status [code] and a body that [json()] settles to [parsed]. *)
Definition answering (code : Z) (parsed : settled value) : World :=
  stub_world (Some "secret") (Resolved (mkApiResponse code parsed)).

(** A world with the credential set whose network is down. *)
Definition offline : World :=
  stub_world (Some "secret") (Rejected (mkError "TypeError" "fetch failed")).

(** * Properties *)

Lemma skipn_length_app {A : Type} (l extra : list A) :
  skipn (length l) (l ++ extra) = extra.
Proof. induction l as [|a l IH]; simpl; [reflexivity | exact IH]. Qed.

Lemma new_events_1 {A : Type} (m : M A) (w : World) c e1 :
  m w = (c, emit e1 w) -> new_events m w = [e1].
Proof.
  intros E. unfold new_events. rewrite E. simpl. apply skipn_length_app.
Qed.

Lemma new_events_2 {A : Type} (m : M A) (w : World) c e1 e2 :
  m w = (c, emit e2 (emit e1 w)) -> new_events m w = [e1; e2].
Proof.
  intros E. unfold new_events. rewrite E. simpl.
  rewrite <- app_assoc. apply skipn_length_app.
Qed.

Lemma new_events_3 {A : Type} (m : M A) (w : World) c e1 e2 e3 :
  m w = (c, emit e3 (emit e2 (emit e1 w))) -> new_events m w = [e1; e2; e3].
Proof.
  intros E. unfold new_events. rewrite E. simpl.
  rewrite <- !app_assoc. apply skipn_length_app.
Qed.

Lemma credential_env (w : World) (key : string) :
  credential w = Some key ->
  env w "GEMINI_API_KEY" = Some key /\ key <> "".
Proof.
  unfold credential. destruct (env w "GEMINI_API_KEY") as [[|c s]|]; try discriminate.
  intros E. injection E as <-. split; [reflexivity | discriminate].
Qed.

Lemma credential_of_env (w : World) (key : string) :
  env w "GEMINI_API_KEY" = Some key -> key <> "" -> credential w = Some key.
Proof.
  unfold credential. intros ->. destruct key; [congruence | reflexivity].
Qed.

Lemma method_gate (m : string) : m <> "POST" -> negb (m =? "POST") = true.
Proof.
  intros H. destruct (String.eqb_spec m "POST"); [contradiction | reflexivity].
Qed.

Section Extraction.

Variable read_of_nullish : value -> string -> string.

Ltac level v :=
  let E := fresh "E" in
  destruct (nullish v) eqn:E; simpl; try discriminate; eauto.

(** The optional chain finds the text that the path leads to. *)
Lemma generated_text_present (v t : value) :
  text_at_path v = Some t -> generated_text read_of_nullish v = Normal t.
Proof.
  unfold text_at_path, generated_text, get_member, opt_first, opt_member,
    get_first, get_member, present.
  level v.
  level (member_of v "candidates").
  level (first_of (member_of v "candidates")).
  level (member_of (first_of (member_of v "candidates")) "content").
  level (member_of (member_of (first_of (member_of v "candidates")) "content") "parts").
  level (first_of (member_of (member_of (first_of (member_of v "candidates")) "content") "parts")).
  level (member_of (first_of (member_of (member_of (first_of (member_of v "candidates")) "content") "parts")) "text").
  intros [= <-]. reflexivity.
Qed.

(** On a response that is not nullish the chain completes, whatever its
    shape. *)
Lemma generated_text_total (v : value) :
  nullish v = false -> exists t, generated_text read_of_nullish v = Normal t.
Proof.
  intros Hv.
  unfold generated_text, get_member, opt_first, opt_member, get_first, get_member.
  rewrite Hv. simpl.
  level (member_of v "candidates").
  level (first_of (member_of v "candidates")).
  level (member_of (first_of (member_of v "candidates")) "content").
  level (member_of (member_of (first_of (member_of v "candidates")) "content") "parts").
  level (first_of (member_of (member_of (first_of (member_of v "candidates")) "content") "parts")).
Qed.

(** When a level of the path is missing or null, the chain yields a
    nullish value. *)
Lemma generated_text_absent (v : value) :
  nullish v = false -> text_at_path v = None ->
  exists t, generated_text read_of_nullish v = Normal t /\ nullish t = true.
Proof.
  intros Hv.
  unfold text_at_path, generated_text, get_member, opt_first, opt_member,
    get_first, get_member, present.
  rewrite Hv. simpl.
  level (member_of v "candidates").
  level (first_of (member_of v "candidates")).
  level (member_of (first_of (member_of v "candidates")) "content").
  level (member_of (member_of (first_of (member_of v "candidates")) "content") "parts").
  level (first_of (member_of (member_of (first_of (member_of v "candidates")) "content") "parts")).
  level (member_of (first_of (member_of (member_of (first_of (member_of v "candidates")) "content") "parts")) "text").
Qed.

(** The first link of the chain is not optional. *)
Lemma generated_text_nullish_root (v : value) :
  nullish v = true ->
  generated_text read_of_nullish v
    = Throw (mkError "TypeError" (read_of_nullish v "candidates")).
Proof.
  intros Hv. unfold generated_text, get_member. rewrite Hv. reflexivity.
Qed.

End Extraction.

Lemma nullish_falsy (v : value) : nullish v = true -> to_boolean v = false.
Proof. destruct v; simpl; congruence. Qed.

Section HandlerProperties.

Variable JSON_stringify : value -> string.
Variable read_of_nullish : value -> string -> string.
Variable destructure_of_nullish : value -> string.

Local Abbreviation handle :=
  (handler JSON_stringify read_of_nullish destructure_of_nullish).
Local Abbreviation handle_try :=
  (handler_try JSON_stringify read_of_nullish destructure_of_nullish).
Local Abbreviation KEY := "GEMINI_API_KEY".

Local Abbreviation internal_error e :=
  (JObj [ ("error", JStr "Internal Server Error during proxy processing.");
          ("details", JStr (message e)) ]).

(** Whatever is unfolded of the monad to run the handler by hand. *)
Ltac run :=
  unfold handler, handler_try, handler_catch, try_catch, bind, process_env,
    fetch, await, lift, ret, respond, destructure_body, get_member,
    bind_completion; simpl.

(** *** The [try] block, branch by branch *)

Lemma try_no_credential (req : Request) (w : World) :
  credential w = None ->
  handle_try req w
  = (Normal tt,
     emit (Reply 500 (JObj [ ("error", JStr "Server configuration error: GEMINI_API_KEY environment variable is missing.") ]))
          (emit (EnvRead KEY) w)).
Proof.
  intros Hc. run. unfold credential in Hc.
  destruct (env w KEY) as [[|c s]|]; try discriminate; reflexivity.
Qed.

Lemma try_no_body (req : Request) (w : World) (key : string) :
  credential w = Some key -> nullish (body req) = true ->
  handle_try req w
  = (Throw (mkError "TypeError" (destructure_of_nullish (body req))),
     emit (EnvRead KEY) w).
Proof.
  intros Hc Hb. apply credential_env in Hc as [He Hk].
  run. rewrite He.
  destruct key as [|c s]; [congruence |]. simpl. rewrite Hb. reflexivity.
Qed.

(** Past the credential and the body the handler makes its call, and what
    follows is decided by the upstream's answer. *)
Lemma try_upstream (req : Request) (w : World) (key : string) :
  credential w = Some key -> nullish (body req) = false ->
  handle_try req w
  = let w2 := emit (Fetch (fst (upstream_call JSON_stringify key req))
                          (snd (upstream_call JSON_stringify key req)))
                   (emit (EnvRead KEY) w) in
    match upstream_answer JSON_stringify w key req with
    | Rejected e => (Throw e, w2)
    | Resolved resp =>
        match json resp with
        | Rejected e => (Throw e, w2)
        | Resolved v =>
            if ok resp then
              match generated_text read_of_nullish v with
              | Throw e => (Throw e, w2)
              | Normal t =>
                  if to_boolean t
                  then (Normal tt, emit (Reply 200 (JObj [ ("summary", t) ])) w2)
                  else (Normal tt,
                        emit (Reply 500 (JObj [ ("error", JStr "Gemini API returned an empty or invalid response.") ])) w2)
              end
            else
              (Normal tt,
               emit (Reply (status resp)
                       (JObj [ ("error", JStr ("Gemini API call failed with status " ++ decimal (status resp)));
                               ("details", v) ])) w2)
        end
    end.
Proof.
  intros Hc Hb. apply credential_env in Hc as [He Hk].
  unfold upstream_answer, upstream_call.
  run. rewrite He.
  destruct key as [|c s]; [congruence |]. simpl. rewrite Hb. simpl.
  destruct (net w _ _) as [resp | e]; [| reflexivity].
  destruct (json resp) as [v | e]; simpl; [| reflexivity].
  destruct (ok resp); [| reflexivity].
  destruct (generated_text read_of_nullish v) as [t | e]; simpl; [| reflexivity].
  destruct (to_boolean t); reflexivity.
Qed.

(** *** The handler around it *)

Lemma run_wrong_method (req : Request) (w : World) :
  method req <> "POST" ->
  handle req w
  = (Normal tt,
     emit (Reply 405 (JObj [ ("error", JStr "Method Not Allowed. This endpoint only accepts POST requests.") ])) w).
Proof.
  intros H. unfold handler. rewrite (method_gate _ H). reflexivity.
Qed.

Lemma run_post (req : Request) (w : World) :
  method req = "POST" ->
  handle req w
  = match handle_try req w with
    | (Normal a, w') => (Normal a, w')
    | (Throw e, w') => (Normal tt, emit (Reply 500 (internal_error e)) w')
    end.
Proof. intros Hm. unfold handler. rewrite Hm. reflexivity. Qed.

Lemma run_no_credential (req : Request) (w : World) :
  method req = "POST" -> credential w = None ->
  handle req w
  = (Normal tt,
     emit (Reply 500 (JObj [ ("error", JStr "Server configuration error: GEMINI_API_KEY environment variable is missing.") ]))
          (emit (EnvRead KEY) w)).
Proof.
  intros Hm Hc. rewrite (run_post _ _ Hm), (try_no_credential _ _ Hc). reflexivity.
Qed.

Lemma run_no_body (req : Request) (w : World) (key : string) :
  method req = "POST" -> credential w = Some key -> nullish (body req) = true ->
  handle req w
  = (Normal tt,
     emit (Reply 500 (internal_error (mkError "TypeError" (destructure_of_nullish (body req)))))
          (emit (EnvRead KEY) w)).
Proof.
  intros Hm Hc Hb. rewrite (run_post _ _ Hm), (try_no_body _ _ _ Hc Hb). reflexivity.
Qed.

Lemma run_upstream (req : Request) (w : World) (key : string) :
  method req = "POST" -> credential w = Some key -> nullish (body req) = false ->
  handle req w
  = let w2 := emit (Fetch (fst (upstream_call JSON_stringify key req))
                          (snd (upstream_call JSON_stringify key req)))
                   (emit (EnvRead KEY) w) in
    match upstream_answer JSON_stringify w key req with
    | Rejected e => (Normal tt, emit (Reply 500 (internal_error e)) w2)
    | Resolved resp =>
        match json resp with
        | Rejected e => (Normal tt, emit (Reply 500 (internal_error e)) w2)
        | Resolved v =>
            if ok resp then
              match generated_text read_of_nullish v with
              | Throw e => (Normal tt, emit (Reply 500 (internal_error e)) w2)
              | Normal t =>
                  if to_boolean t
                  then (Normal tt, emit (Reply 200 (JObj [ ("summary", t) ])) w2)
                  else (Normal tt,
                        emit (Reply 500 (JObj [ ("error", JStr "Gemini API returned an empty or invalid response.") ])) w2)
              end
            else
              (Normal tt,
               emit (Reply (status resp)
                       (JObj [ ("error", JStr ("Gemini API call failed with status " ++ decimal (status resp)));
                               ("details", v) ])) w2)
        end
    end.
Proof.
  intros Hm Hc Hb. rewrite (run_post _ _ Hm), (try_upstream _ _ _ Hc Hb).
  cbv zeta.
  destruct (upstream_answer JSON_stringify w key req) as [resp | e]; [| reflexivity].
  destruct (json resp) as [v | e]; [| reflexivity].
  destruct (ok resp); [| reflexivity].
  destruct (generated_text read_of_nullish v) as [t | e]; [| reflexivity].
  destruct (to_boolean t); reflexivity.
Qed.

(** Past the gates a run is the credential read, the call and one reply. *)
Lemma run_upstream_events (req : Request) (w : World) (key : string) :
  method req = "POST" -> credential w = Some key -> nullish (body req) = false ->
  exists code payload,
    handle req w
    = (Normal tt,
       emit (Reply code payload)
         (emit (Fetch (fst (upstream_call JSON_stringify key req))
                      (snd (upstream_call JSON_stringify key req)))
               (emit (EnvRead KEY) w))).
Proof.
  intros Hm Hc Hb. rewrite (run_upstream _ _ _ Hm Hc Hb). cbv zeta.
  destruct (upstream_answer JSON_stringify w key req) as [resp | e]; [| eauto].
  destruct (json resp) as [v | e]; [| eauto].
  destruct (ok resp); [| eauto].
  destruct (generated_text read_of_nullish v) as [t | e]; [| eauto].
  destruct (to_boolean t); eauto.
Qed.

(** *** The claims *)

(** C1. On a POST request for which the upstream call returns a status in
    the success range and a parsed response that has a present, non-empty
    text at the path first candidate, content, first part, text, the
    handler replies 200 with exactly [{ summary: text }]; it is its only
    reply.  (The call is made, so the credential is set and the body could
    be destructured.) *)
Theorem success_relays_generated_text
    (req : Request) (w : World) (key : string) (resp : ApiResponse)
    (v : value) (text : string) :
  method req = "POST" ->
  credential w = Some key ->
  nullish (body req) = false ->
  upstream_answer JSON_stringify w key req = Resolved resp ->
  ok resp = true ->
  json resp = Resolved v ->
  text_at_path v = Some (JStr text) ->
  text <> "" ->
  handle req w
  = (Normal tt,
     emit (Reply 200 (JObj [ ("summary", JStr text) ]))
       (emit (Fetch (fst (upstream_call JSON_stringify key req))
                    (snd (upstream_call JSON_stringify key req)))
             (emit (EnvRead KEY) w)))
  /\ replies (new_events (handle req) w) = [ (200%Z, JObj [ ("summary", JStr text) ]) ].
Proof.
  intros Hm Hc Hb Ha Hok Hj Hp Ht.
  assert (R : handle req w
              = (Normal tt,
                 emit (Reply 200 (JObj [ ("summary", JStr text) ]))
                   (emit (Fetch (fst (upstream_call JSON_stringify key req))
                                (snd (upstream_call JSON_stringify key req)))
                         (emit (EnvRead KEY) w)))).
  { rewrite (run_upstream _ _ _ Hm Hc Hb). cbv zeta.
    rewrite Ha, Hj, Hok, (generated_text_present _ _ _ Hp).
    destruct text; [congruence | reflexivity]. }
  split; [exact R |].
  rewrite (new_events_3 _ _ _ _ _ _ R). reflexivity.
Qed.

(** C2. The call the handler makes upstream carries the payload
    [{ contents: [{ parts: [{ text: prompt }] }],
       systemInstruction: { parts: [{ text: systemInstruction }] } }]
    with the [prompt] and [systemInstruction] of the inbound body and
    nothing else, serialized, and it is the only call: a POST request with
    the credential set and a body to destructure makes exactly this call,
    any other request makes none. *)
Theorem outbound_payload_shape (req : Request) (w : World) :
  outbound_calls (new_events (handle req) w)
  = if (method req =? "POST") && negb (nullish (body req)) then
      match credential w with
      | Some key =>
          [ (GEMINI_API_URL ++ "?key=" ++ key,
             mkInit "POST" [ ("Content-Type", "application/json") ]
               (JSON_stringify
                  (JObj [ ("contents",
                           JArr [ JObj [ ("parts",
                                          JArr [ JObj [ ("text", member_of (body req) "prompt") ] ]) ] ]);
                          ("systemInstruction",
                           JObj [ ("parts",
                                   JArr [ JObj [ ("text", member_of (body req) "systemInstruction") ] ]) ]) ]))) ]
      | None => []
      end
    else [].
Proof.
  destruct (String.eqb_spec (method req) "POST") as [Hm | Hm]; simpl.
  - destruct (credential w) as [key |] eqn:Hc.
    + destruct (nullish (body req)) eqn:Hb; simpl.
      * rewrite (new_events_2 _ _ _ _ _ (run_no_body _ _ _ Hm Hc Hb)). reflexivity.
      * destruct (run_upstream_events _ _ _ Hm Hc Hb) as (code & payload & R).
        rewrite (new_events_3 _ _ _ _ _ _ R). reflexivity.
    + rewrite (new_events_2 _ _ _ _ _ (run_no_credential _ _ Hm Hc)).
      destruct (nullish (body req)); reflexivity.
  - rewrite (new_events_1 _ _ _ _ (run_wrong_method _ _ Hm)). reflexivity.
Qed.

(** C3, amended. When the upstream answers with a status S outside the
    success range and its body parses as JSON, the handler replies with
    the same status S and a payload made of a message naming S and of the
    parsed upstream body under [details]. *)
Theorem upstream_failure_forwarded
    (req : Request) (w : World) (key : string) (resp : ApiResponse) (v : value) :
  method req = "POST" ->
  credential w = Some key ->
  nullish (body req) = false ->
  upstream_answer JSON_stringify w key req = Resolved resp ->
  ok resp = false ->
  json resp = Resolved v ->
  replies (new_events (handle req) w)
  = [ (status resp,
       JObj [ ("error", JStr ("Gemini API call failed with status " ++ decimal (status resp)));
              ("details", v) ]) ].
Proof.
  intros Hm Hc Hb Ha Hok Hj.
  pose proof (run_upstream _ _ _ Hm Hc Hb) as R. cbv zeta in R.
  rewrite Ha, Hj, Hok in R.
  rewrite (new_events_3 _ _ _ _ _ _ R). reflexivity.
Qed.

(** C4. On a POST request, when the credential is absent from the
    environment, the handler replies 500 with the configuration error and
    the run holds no upstream call: it is the read of the environment and
    the reply. *)
Theorem missing_credential_stops_before_upstream (req : Request) (w : World) :
  method req = "POST" ->
  env w KEY = None ->
  new_events (handle req) w
  = [ EnvRead KEY;
      Reply 500 (JObj [ ("error", JStr "Server configuration error: GEMINI_API_KEY environment variable is missing.") ]) ]
  /\ outbound_calls (new_events (handle req) w) = [].
Proof.
  intros Hm He.
  assert (Hc : credential w = None) by (unfold credential; rewrite He; reflexivity).
  rewrite (new_events_2 _ _ _ _ _ (run_no_credential _ _ Hm Hc)).
  split; reflexivity.
Qed.

(** C5. A request whose method is not POST gets the reply 405 with an
    [error] field, and that reply is all the handler does: the run reads
    no credential and makes no upstream call. *)
Theorem method_gate_is_terminal (req : Request) (w : World) :
  method req <> "POST" ->
  exists reason,
    handle req w = (Normal tt, emit (Reply 405 (JObj [ ("error", JStr reason) ])) w)
    /\ new_events (handle req) w = [ Reply 405 (JObj [ ("error", JStr reason) ]) ].
Proof.
  intros Hm. eexists. split.
  - exact (run_wrong_method _ _ Hm).
  - exact (new_events_1 _ _ _ _ (run_wrong_method _ _ Hm)).
Qed.

(** C6, amended. When the upstream answers with a status in the success
    range and a parsed JSON value other than [null] that has no text at
    the path (a level is missing or null) or an empty text, the handler
    replies 500 with the error of an empty or invalid upstream response. *)
Theorem empty_upstream_result_is_500
    (req : Request) (w : World) (key : string) (resp : ApiResponse) (v : value) :
  method req = "POST" ->
  credential w = Some key ->
  nullish (body req) = false ->
  upstream_answer JSON_stringify w key req = Resolved resp ->
  ok resp = true ->
  json resp = Resolved v ->
  nullish v = false ->
  text_at_path v = None \/ text_at_path v = Some (JStr "") ->
  replies (new_events (handle req) w)
  = [ (500%Z, JObj [ ("error", JStr "Gemini API returned an empty or invalid response.") ]) ].
Proof.
  intros Hm Hc Hb Ha Hok Hj Hv Hp.
  pose proof (run_upstream _ _ _ Hm Hc Hb) as R. cbv zeta in R.
  rewrite Ha, Hj, Hok in R.
  assert (exists t, generated_text read_of_nullish v = Normal t /\ to_boolean t = false)
    as (t & Ht & Hf).
  { destruct Hp as [Hp | Hp].
    - destruct (generated_text_absent read_of_nullish v Hv Hp) as (t & Ht & Hn).
      exists t. split; [exact Ht | exact (nullish_falsy _ Hn)].
    - exists (JStr ""). split; [exact (generated_text_present _ _ _ Hp) | reflexivity]. }
  rewrite Ht, Hf in R.
  rewrite (new_events_3 _ _ _ _ _ _ R). reflexivity.
Qed.

(** C7. No exception leaves the handler, and an exception raised in the
    [try] block becomes the reply 500 with the internal-error message and
    the exception's message under [details]; the exceptions of the block
    are those of destructuring the body, of the upstream call, of parsing
    its response, and of reading the text from a nullish response. *)
Theorem exceptions_become_500 (req : Request) (w : World) :
  (exists w', handle req w = (Normal tt, w'))
  /\ (forall e w',
        method req = "POST" ->
        handle_try req w = (Throw e, w') ->
        handle req w
        = (Normal tt,
           emit (Reply 500 (JObj [ ("error", JStr "Internal Server Error during proxy processing.");
                                   ("details", JStr (message e)) ])) w'))
  /\ (forall e w',
        handle_try req w = (Throw e, w') ->
        exists key,
          credential w = Some key
          /\ ((nullish (body req) = true
               /\ e = mkError "TypeError" (destructure_of_nullish (body req)))
              \/ (nullish (body req) = false
                  /\ (upstream_answer JSON_stringify w key req = Rejected e
                      \/ exists resp,
                           upstream_answer JSON_stringify w key req = Resolved resp
                           /\ (json resp = Rejected e
                               \/ exists v,
                                    json resp = Resolved v /\ ok resp = true
                                    /\ nullish v = true
                                    /\ e = mkError "TypeError" (read_of_nullish v "candidates")))))).
Proof.
  split; [| split].
  - destruct (String.eqb_spec (method req) "POST") as [Hm | Hm].
    + rewrite (run_post _ _ Hm).
      destruct (handle_try req w) as [[[] | e] w']; eauto.
    + rewrite (run_wrong_method _ _ Hm). eauto.
  - intros e w' Hm Ht. rewrite (run_post _ _ Hm), Ht. reflexivity.
  - intros e w' Ht.
    destruct (credential w) as [key |] eqn:Hc.
    2:{ rewrite (try_no_credential _ _ Hc) in Ht. discriminate. }
    exists key. split; [reflexivity |].
    destruct (nullish (body req)) eqn:Hb.
    { rewrite (try_no_body _ _ _ Hc Hb) in Ht. injection Ht as <- _. left. auto. }
    right. split; [reflexivity |].
    rewrite (try_upstream _ _ _ Hc Hb) in Ht. cbv zeta in Ht.
    destruct (upstream_answer JSON_stringify w key req) as [resp | e0].
    2:{ injection Ht as <- _. left. reflexivity. }
    right. exists resp. split; [reflexivity |].
    destruct (json resp) as [v | e0].
    2:{ injection Ht as <- _. left. reflexivity. }
    right. exists v. split; [reflexivity |].
    destruct (ok resp); [| discriminate].
    destruct (nullish v) eqn:Hv.
    + rewrite (generated_text_nullish_root _ _ Hv) in Ht.
      injection Ht as <- _. auto.
    + destruct (generated_text_total read_of_nullish v Hv) as (t & Hg).
      rewrite Hg in Ht. destruct (to_boolean t); discriminate.
Qed.

(** C8. Two requests that are the same but for the [model] of their body
    run alike in every world: same outbound call to the same endpoint,
    same reply. *)
Theorem model_is_ignored (req1 req2 : Request) (w : World) :
  method req1 = method req2 ->
  same_but_model (body req1) (body req2) ->
  handle req1 w = handle req2 w
  /\ outbound_calls (new_events (handle req1) w) = outbound_calls (new_events (handle req2) w)
  /\ replies (new_events (handle req1) w) = replies (new_events (handle req2) w).
Proof.
  intros Hm Hs.
  assert (R : handle req1 w = handle req2 w).
  { destruct req1 as [m1 b1], req2 as [m2 b2]. simpl in Hm, Hs. subst m2.
    destruct b1, b2; simpl in Hs; try discriminate;
      try (injection Hs as ->; reflexivity); try reflexivity.
    unfold handler, handler_try, try_catch, bind, process_env, destructure_body,
      get_member, lift, bind_completion. simpl.
    rewrite (Hs "prompt") by discriminate.
    rewrite (Hs "systemInstruction") by discriminate.
    reflexivity. }
  unfold new_events. rewrite R. auto.
Qed.

(** C9. The handler keeps no state from one invocation to the next: run on
    the same request in two worlds with the same credential and the same
    upstream behaviour, whatever happened before in either, it completes
    alike and adds the same events, so makes the same outbound calls with
    the same payloads. *)
Theorem handler_is_stateless (req : Request) (w1 w2 : World) :
  env w1 KEY = env w2 KEY ->
  (forall url init, net w1 url init = net w2 url init) ->
  fst (handle req w1) = fst (handle req w2)
  /\ new_events (handle req) w1 = new_events (handle req) w2
  /\ outbound_calls (new_events (handle req) w1)
     = outbound_calls (new_events (handle req) w2).
Proof.
  intros He Hn.
  assert (Hc : credential w1 = credential w2) by (unfold credential; rewrite He; reflexivity).
  enough (fst (handle req w1) = fst (handle req w2)
          /\ new_events (handle req) w1 = new_events (handle req) w2) as [H1 H2].
  { rewrite H2. auto. }
  destruct (String.eqb_spec (method req) "POST") as [Hm | Hm].
  2:{ rewrite (new_events_1 _ _ _ _ (run_wrong_method _ w1 Hm)).
      rewrite (new_events_1 _ _ _ _ (run_wrong_method _ w2 Hm)).
      rewrite !run_wrong_method by assumption. auto. }
  destruct (credential w2) as [key |] eqn:Hc2.
  2:{ rewrite (new_events_2 _ _ _ _ _ (run_no_credential _ w1 Hm Hc)).
      rewrite (new_events_2 _ _ _ _ _ (run_no_credential _ w2 Hm Hc2)).
      rewrite !run_no_credential by assumption. auto. }
  destruct (nullish (body req)) eqn:Hb.
  { rewrite (new_events_2 _ _ _ _ _ (run_no_body _ w1 _ Hm Hc Hb)).
    rewrite (new_events_2 _ _ _ _ _ (run_no_body _ w2 _ Hm Hc2 Hb)).
    rewrite (run_no_body _ w1 _ Hm Hc Hb), (run_no_body _ w2 _ Hm Hc2 Hb). auto. }
  pose proof (run_upstream _ w1 _ Hm Hc Hb) as R1.
  pose proof (run_upstream _ w2 _ Hm Hc2 Hb) as R2.
  cbv zeta in R1, R2.
  assert (Ha : upstream_answer JSON_stringify w2 key req
               = upstream_answer JSON_stringify w1 key req)
    by (unfold upstream_answer; rewrite Hn; reflexivity).
  rewrite Ha in R2.
  destruct (upstream_answer JSON_stringify w1 key req) as [resp | e];
    [destruct (json resp) as [v | e];
     [destruct (ok resp);
      [destruct (generated_text read_of_nullish v) as [t | e];
       [destruct (to_boolean t) |] |] |] |];
    rewrite (new_events_3 _ _ _ _ _ _ R1), (new_events_3 _ _ _ _ _ _ R2), R1, R2;
    auto.
Qed.

(** C10, amended. On every upstream JSON value other than [null] the read
    of the text along the path completes without an exception, whatever
    the value's shape; and when [candidates], the first candidate,
    [content], [parts], the first part or [text] is missing or null, a
    response with a status in the success range gets the reply 500 of an
    empty or invalid response, not the internal-error one. *)
Theorem extraction_is_total_below_the_root (v : value) :
  nullish v = false ->
  (exists t, generated_text read_of_nullish v = Normal t)
  /\ (text_at_path v = None ->
      (exists t, generated_text read_of_nullish v = Normal t /\ nullish t = true)
      /\ forall req w key resp,
           method req = "POST" ->
           credential w = Some key ->
           nullish (body req) = false ->
           upstream_answer JSON_stringify w key req = Resolved resp ->
           ok resp = true ->
           json resp = Resolved v ->
           handle_try req w
           = (Normal tt,
              emit (Reply 500 (JObj [ ("error", JStr "Gemini API returned an empty or invalid response.") ]))
                (emit (Fetch (fst (upstream_call JSON_stringify key req))
                             (snd (upstream_call JSON_stringify key req)))
                      (emit (EnvRead KEY) w)))
           /\ replies (new_events (handle req) w)
              = [ (500%Z, JObj [ ("error", JStr "Gemini API returned an empty or invalid response.") ]) ]).
Proof.
  intros Hv. split; [exact (generated_text_total _ _ Hv) |].
  intros Hp.
  destruct (generated_text_absent read_of_nullish v Hv Hp) as (t & Ht & Hn).
  split; [eauto |].
  intros req w key resp Hm Hc Hb Ha Hok Hj.
  pose proof (nullish_falsy _ Hn) as Hf.
  split.
  - rewrite (try_upstream _ _ _ Hc Hb). cbv zeta.
    rewrite Ha, Hj, Hok, Ht, Hf. reflexivity.
  - pose proof (run_upstream _ _ _ Hm Hc Hb) as R. cbv zeta in R.
    rewrite Ha, Hj, Hok, Ht, Hf in R.
    rewrite (new_events_3 _ _ _ _ _ _ R). reflexivity.
Qed.

End HandlerProperties.

(** * Further behaviour of the handler *)

Section PathConverse.

Variable read_of_nullish : value -> string -> string.

Ltac down v :=
  let E := fresh "E" in
  destruct (nullish v) eqn:E; simpl;
  try (intros [= <-]; discriminate); try discriminate.

(** A value that the chain yields and that is not nullish is the value at
    the path: the chain did not short-circuit. *)
Lemma generated_text_found (v t : value) :
  generated_text read_of_nullish v = Normal t -> nullish t = false ->
  text_at_path v = Some t.
Proof.
  unfold text_at_path, generated_text, get_member, opt_first, opt_member,
    get_first, get_member, present.
  down v.
  down (member_of v "candidates").
  down (first_of (member_of v "candidates")).
  down (member_of (first_of (member_of v "candidates")) "content").
  down (member_of (member_of (first_of (member_of v "candidates")) "content") "parts").
  down (first_of (member_of (member_of (first_of (member_of v "candidates")) "content") "parts")).
  intros [= <-] Ht. rewrite Ht. reflexivity.
Qed.

End PathConverse.

Lemma truthy_present (v : value) : to_boolean v = true -> nullish v = false.
Proof. destruct v; simpl; congruence. Qed.

Section HandlerBehaviour.

Variable JSON_stringify : value -> string.
Variable read_of_nullish : value -> string -> string.
Variable destructure_of_nullish : value -> string.

Local Abbreviation handle :=
  (handler JSON_stringify read_of_nullish destructure_of_nullish).
Local Abbreviation KEY := "GEMINI_API_KEY".
Local Abbreviation branch :=
  (answers JSON_stringify read_of_nullish destructure_of_nullish).

(** Every run ends in one reply, the one of the branch taken. *)
Lemma handler_answers (req : Request) (w : World) :
  exists code payload,
    replies (new_events (handle req) w) = [ (code, payload) ]
    /\ branch req w code payload.
Proof.
  destruct (String.eqb_spec (method req) "POST") as [Hm | Hm].
  2:{ do 2 eexists. split.
      - rewrite (new_events_1 _ _ _ _ (run_wrong_method _ _ _ _ _ Hm)). reflexivity.
      - constructor. exact Hm. }
  destruct (credential w) as [key |] eqn:Hc.
  2:{ do 2 eexists. split.
      - rewrite (new_events_2 _ _ _ _ _ (run_no_credential _ _ _ _ _ Hm Hc)). reflexivity.
      - constructor; assumption. }
  destruct (nullish (body req)) eqn:Hb.
  { do 2 eexists. split.
    - rewrite (new_events_2 _ _ _ _ _ (run_no_body _ _ _ _ _ _ Hm Hc Hb)). reflexivity.
    - econstructor; eassumption. }
  pose proof (run_upstream JSON_stringify read_of_nullish destructure_of_nullish
                _ _ _ Hm Hc Hb) as R.
  cbv zeta in R.
  destruct (upstream_answer JSON_stringify w key req) as [resp | e] eqn:Ha.
  2:{ do 2 eexists. split.
      - rewrite (new_events_3 _ _ _ _ _ _ R). reflexivity.
      - eapply answers_fetch_rejected; eassumption. }
  destruct (json resp) as [v | e] eqn:Hj.
  2:{ do 2 eexists. split.
      - rewrite (new_events_3 _ _ _ _ _ _ R). reflexivity.
      - eapply answers_json_rejected; eassumption. }
  destruct (ok resp) eqn:Hok.
  2:{ do 2 eexists. split.
      - rewrite (new_events_3 _ _ _ _ _ _ R). reflexivity.
      - eapply answers_upstream_failure; eassumption. }
  destruct (generated_text read_of_nullish v) as [t | e] eqn:Hg.
  2:{ do 2 eexists. split.
      - rewrite (new_events_3 _ _ _ _ _ _ R). reflexivity.
      - eapply answers_extraction_raised; eassumption. }
  destruct (to_boolean t) eqn:Ht.
  - do 2 eexists. split.
    + rewrite (new_events_3 _ _ _ _ _ _ R). reflexivity.
    + eapply answers_summary; eassumption.
  - do 2 eexists. split.
    + rewrite (new_events_3 _ _ _ _ _ _ R). reflexivity.
    + eapply answers_empty; eassumption.
Qed.

Lemma reply_of_run (req : Request) (w : World) (code : Z) (payload : value) :
  In (code, payload) (replies (new_events (handle req) w)) ->
  branch req w code payload.
Proof.
  destruct (handler_answers req w) as (c & p & E & B).
  rewrite E. intros [[= <- <-] | []]. exact B.
Qed.

Lemma log_grows_by {A : Type} (m : M A) (w : World) (added : list Event) :
  log (snd (m w)) = (log w ++ added)%list ->
  new_events m w = added /\ log (snd (m w)) = (log w ++ new_events m w)%list.
Proof.
  intros E. unfold new_events. rewrite E, skipn_length_app. auto.
Qed.

(** X1. An empty credential is a missing one: with [GEMINI_API_KEY] set to
    the empty string a POST run is the read of the environment and the
    reply 500 with the configuration error, and no call goes upstream with
    an empty key. *)
Theorem empty_credential_is_missing (req : Request) (w : World) :
  method req = "POST" ->
  env w KEY = Some "" ->
  new_events (handle req) w
  = [ EnvRead KEY;
      Reply 500 (JObj [ ("error", JStr "Server configuration error: GEMINI_API_KEY environment variable is missing.") ]) ].
Proof.
  intros Hm He.
  assert (Hc : credential w = None) by (unfold credential; rewrite He; reflexivity).
  exact (new_events_2 _ _ _ _ _ (run_no_credential _ _ _ _ _ Hm Hc)).
Qed.

(** X2. A POST request without a body ([undefined] or [null]) is answered
    500 with the internal-error message and the TypeError of the
    destructuring under [details]; the credential has been read and nothing
    is sent upstream. *)
Theorem missing_body_is_internal_error (req : Request) (w : World) (key : string) :
  method req = "POST" ->
  credential w = Some key ->
  nullish (body req) = true ->
  new_events (handle req) w
  = [ EnvRead KEY;
      Reply 500 (JObj [ ("error", JStr "Internal Server Error during proxy processing.");
                        ("details", JStr (destructure_of_nullish (body req))) ]) ].
Proof.
  intros Hm Hc Hb.
  exact (new_events_2 _ _ _ _ _ (run_no_body _ _ _ _ _ _ Hm Hc Hb)).
Qed.

(** X3. Whatever the request and the world, a run keeps the log it found
    and adds one of three sequences: the reply alone; the read of the
    credential and the reply; the read, one upstream call and the reply.  So
    every invocation replies exactly once, as its last act, and calls
    upstream at most once. *)
Theorem run_shape (req : Request) (w : World) :
  exists code payload,
    log (snd (handle req w)) = (log w ++ new_events (handle req) w)%list
    /\ (new_events (handle req) w = [ Reply code payload ]
        \/ new_events (handle req) w = [ EnvRead KEY; Reply code payload ]
        \/ exists url init,
             new_events (handle req) w = [ EnvRead KEY; Fetch url init; Reply code payload ]).
Proof.
  destruct (String.eqb_spec (method req) "POST") as [Hm | Hm].
  2:{ edestruct (log_grows_by (handle req) w) as [E L].
      { rewrite (run_wrong_method _ _ _ _ _ Hm). reflexivity. }
      do 2 eexists. split; [exact L | left; exact E]. }
  destruct (credential w) as [key |] eqn:Hc.
  2:{ edestruct (log_grows_by (handle req) w) as [E L].
      { rewrite (run_no_credential _ _ _ _ _ Hm Hc). simpl.
        rewrite <- app_assoc. reflexivity. }
      do 2 eexists. split; [exact L | right; left; exact E]. }
  destruct (nullish (body req)) eqn:Hb.
  { edestruct (log_grows_by (handle req) w) as [E L].
    { rewrite (run_no_body _ _ _ _ _ _ Hm Hc Hb). simpl.
      rewrite <- app_assoc. reflexivity. }
    do 2 eexists. split; [exact L | right; left; exact E]. }
  destruct (run_upstream_events JSON_stringify read_of_nullish destructure_of_nullish
              _ _ _ Hm Hc Hb) as (code & payload & R).
  edestruct (log_grows_by (handle req) w) as [E L].
  { rewrite R. simpl. rewrite <- !app_assoc. reflexivity. }
  exists code, payload.
  split; [exact L | right; right; do 2 eexists; exact E].
Qed.

(** X4. A reply in the success range is always the 200 with a summary, and
    it is only given when the upstream answered a POST with a status in the
    success range and a parsed body whose value at the path first candidate,
    content, first part, text is truthy; the summary is that value.  A
    failure of the upstream never reaches the caller as a success. *)
Theorem success_reply_is_sound
    (req : Request) (w : World) (code : Z) (payload : value) :
  In (code, payload) (replies (new_events (handle req) w)) ->
  (200 <= code <= 299)%Z ->
  code = 200%Z
  /\ exists key resp v t,
       method req = "POST"
       /\ credential w = Some key
       /\ upstream_answer JSON_stringify w key req = Resolved resp
       /\ ok resp = true
       /\ json resp = Resolved v
       /\ text_at_path v = Some t
       /\ to_boolean t = true
       /\ payload = JObj [ ("summary", t) ].
Proof.
  intros Hin Hrange. apply reply_of_run in Hin.
  destruct Hin; try lia.
  - split; [reflexivity |].
    exists key, resp, v, t.
    repeat (split; [assumption |]).
    split; [| auto].
    apply (generated_text_found read_of_nullish); [assumption |].
    apply truthy_present. assumption.
  - exfalso. unfold ok in *.
    apply andb_false_iff in H4 as [H4 | H4]; apply Z.leb_gt in H4; lia.
Qed.

(** X5. Every reply other than the 200 carries an [error] field that is a
    non-empty string. *)
Theorem failure_replies_carry_error
    (req : Request) (w : World) (code : Z) (payload : value) :
  In (code, payload) (replies (new_events (handle req) w)) ->
  code <> 200%Z ->
  exists reason, member_of payload "error" = JStr reason /\ reason <> "".
Proof.
  intros Hin Hcode. apply reply_of_run in Hin.
  destruct Hin; try congruence;
    eexists; (split; [reflexivity | discriminate]).
Qed.

(** X6. The credential reaches the upstream call and nothing else: under two
    credentials, when the upstream gives the same answer, the caller gets
    the same reply. *)
Theorem credential_only_reaches_upstream
    (req : Request) (w1 w2 : World) (key1 key2 : string) :
  credential w1 = Some key1 ->
  credential w2 = Some key2 ->
  upstream_answer JSON_stringify w1 key1 req = upstream_answer JSON_stringify w2 key2 req ->
  replies (new_events (handle req) w1) = replies (new_events (handle req) w2).
Proof.
  intros Hc1 Hc2 Ha.
  destruct (String.eqb_spec (method req) "POST") as [Hm | Hm].
  2:{ rewrite (new_events_1 _ _ _ _ (run_wrong_method _ _ _ _ w1 Hm)).
      rewrite (new_events_1 _ _ _ _ (run_wrong_method _ _ _ _ w2 Hm)).
      reflexivity. }
  destruct (nullish (body req)) eqn:Hb.
  { rewrite (new_events_2 _ _ _ _ _ (run_no_body _ _ _ _ w1 _ Hm Hc1 Hb)).
    rewrite (new_events_2 _ _ _ _ _ (run_no_body _ _ _ _ w2 _ Hm Hc2 Hb)).
    reflexivity. }
  pose proof (run_upstream JSON_stringify read_of_nullish destructure_of_nullish
                _ w1 _ Hm Hc1 Hb) as R1.
  pose proof (run_upstream JSON_stringify read_of_nullish destructure_of_nullish
                _ w2 _ Hm Hc2 Hb) as R2.
  cbv zeta in R1, R2. rewrite <- Ha in R2.
  destruct (upstream_answer JSON_stringify w1 key1 req) as [resp | e];
    [destruct (json resp) as [v | e];
     [destruct (ok resp);
      [destruct (generated_text read_of_nullish v) as [t | e];
       [destruct (to_boolean t) |] |] |] |];
    rewrite (new_events_3 _ _ _ _ _ _ R1), (new_events_3 _ _ _ _ _ _ R2);
    reflexivity.
Qed.

(** X7. The handler tests the value at the path for truthiness, not for
    being a string: a truthy value of any type (a number, an object) is
    relayed as the summary with 200, and a falsy one (the empty string, 0,
    NaN, false) gets the 500 of an empty or invalid response. *)
Theorem reply_follows_truthiness
    (req : Request) (w : World) (key : string) (resp : ApiResponse) (v t : value) :
  method req = "POST" ->
  credential w = Some key ->
  nullish (body req) = false ->
  upstream_answer JSON_stringify w key req = Resolved resp ->
  ok resp = true ->
  json resp = Resolved v ->
  text_at_path v = Some t ->
  replies (new_events (handle req) w)
  = [ if to_boolean t
      then (200%Z, JObj [ ("summary", t) ])
      else (500%Z, JObj [ ("error", JStr "Gemini API returned an empty or invalid response.") ]) ].
Proof.
  intros Hm Hc Hb Ha Hok Hj Hp.
  pose proof (run_upstream JSON_stringify read_of_nullish destructure_of_nullish
                _ _ _ Hm Hc Hb) as R.
  cbv zeta in R.
  rewrite Ha, Hj, Hok, (generated_text_present _ _ _ Hp) in R.
  destruct (to_boolean t); rewrite (new_events_3 _ _ _ _ _ _ R); reflexivity.
Qed.

(** X8. Of a body that can be destructured the handler uses [prompt] and
    [systemInstruction] and nothing else: two requests with the same method
    whose bodies give the same two values run alike, whatever else the
    bodies hold and whether they are objects at all.  A field that is
    missing is [undefined] and the call is made all the same. *)
Theorem body_read_through_two_fields (req1 req2 : Request) (w : World) :
  method req1 = method req2 ->
  nullish (body req1) = false ->
  nullish (body req2) = false ->
  member_of (body req1) "prompt" = member_of (body req2) "prompt" ->
  member_of (body req1) "systemInstruction" = member_of (body req2) "systemInstruction" ->
  handle req1 w = handle req2 w.
Proof.
  intros Hm Hb1 Hb2 Hp Hs.
  destruct (String.eqb_spec (method req1) "POST") as [Hm1 | Hm1].
  2:{ rewrite !run_wrong_method by congruence. reflexivity. }
  assert (Hm2 : method req2 = "POST") by congruence.
  destruct (credential w) as [key |] eqn:Hc.
  2:{ rewrite !run_no_credential by assumption. reflexivity. }
  rewrite (run_upstream _ _ _ _ _ _ Hm1 Hc Hb1), (run_upstream _ _ _ _ _ _ Hm2 Hc Hb2).
  unfold upstream_answer, upstream_call. rewrite Hp, Hs. reflexivity.
Qed.

(** X9. The status of a reply is 405, 500 or 200, or else the status of an
    upstream answer outside the success range, forwarded. *)
Theorem reply_codes (req : Request) (w : World) (code : Z) (payload : value) :
  In (code, payload) (replies (new_events (handle req) w)) ->
  code = 405%Z \/ code = 500%Z \/ code = 200%Z
  \/ exists key resp,
       credential w = Some key
       /\ upstream_answer JSON_stringify w key req = Resolved resp
       /\ ok resp = false
       /\ code = status resp.
Proof.
  intros Hin. apply reply_of_run in Hin.
  destruct Hin;
    try (left; reflexivity);
    try (right; left; reflexivity);
    try (right; right; left; reflexivity).
  right. right. right. exists key, resp. auto.
Qed.

(** X10. When the upstream call fails (the promise of [fetch] rejects), the
    run is the read of the credential, that one call and the reply 500 with
    the internal-error message and the failure's message under [details]:
    the call is not made again. *)
Theorem network_failure_is_500
    (req : Request) (w : World) (key : string) (e : Error) :
  method req = "POST" ->
  credential w = Some key ->
  nullish (body req) = false ->
  upstream_answer JSON_stringify w key req = Rejected e ->
  new_events (handle req) w
  = [ EnvRead KEY;
      Fetch (fst (upstream_call JSON_stringify key req))
            (snd (upstream_call JSON_stringify key req));
      Reply 500 (JObj [ ("error", JStr "Internal Server Error during proxy processing.");
                        ("details", JStr (message e)) ]) ].
Proof.
  intros Hm Hc Hb Ha.
  pose proof (run_upstream JSON_stringify read_of_nullish destructure_of_nullish
                _ _ _ Hm Hc Hb) as R.
  cbv zeta in R. rewrite Ha in R.
  exact (new_events_3 _ _ _ _ _ _ R).
Qed.

(** X11. The body of the upstream's answer is parsed before its status is
    looked at: when it does not parse, the reply is 500 with the
    internal-error message and the parser's message under [details],
    whatever the status was, success or not. *)
Theorem unparsable_answer_is_500
    (req : Request) (w : World) (key : string) (resp : ApiResponse) (e : Error) :
  method req = "POST" ->
  credential w = Some key ->
  nullish (body req) = false ->
  upstream_answer JSON_stringify w key req = Resolved resp ->
  json resp = Rejected e ->
  replies (new_events (handle req) w)
  = [ (500%Z,
       JObj [ ("error", JStr "Internal Server Error during proxy processing.");
              ("details", JStr (message e)) ]) ].
Proof.
  intros Hm Hc Hb Ha Hj.
  pose proof (run_upstream JSON_stringify read_of_nullish destructure_of_nullish
                _ _ _ Hm Hc Hb) as R.
  cbv zeta in R. rewrite Ha, Hj in R.
  rewrite (new_events_3 _ _ _ _ _ _ R). reflexivity.
Qed.

End HandlerBehaviour.

(** * Concrete runs *)

Local Abbreviation v8_theorem T :=
  (T stub_stringify v8_read_of_nullish v8_destructure_of_nullish).

(** The specification's first example: status 200 with the candidate text
    "Result text". *)
Lemma success_relays_generated_text_witness :
  text_at_path (candidate_response (JStr "Result text")) = Some (JStr "Result text")
  /\ replies (new_events (v8_handler sample_request)
                (answering 200 (Resolved (candidate_response (JStr "Result text")))))
     = [ (200%Z, JObj [ ("summary", JStr "Result text") ]) ].
Proof.
  split; [reflexivity |].
  refine (proj2 (v8_theorem success_relays_generated_text sample_request
                   (answering 200 (Resolved (candidate_response (JStr "Result text"))))
                   "secret"
                   (mkApiResponse 200 (Resolved (candidate_response (JStr "Result text"))))
                   (candidate_response (JStr "Result text")) "Result text"
                   _ _ _ _ _ _ _ _));
    try reflexivity.
  discriminate.
Defined.

Lemma outbound_payload_shape_witness :
  outbound_calls (new_events (v8_handler sample_request) offline)
  = [ (GEMINI_API_URL ++ "?key=secret",
       mkInit "POST" [ ("Content-Type", "application/json") ]
         (stub_stringify
            (JObj [ ("contents", JArr [ JObj [ ("parts", JArr [ JObj [ ("text", JStr "Summarise the ROI") ] ]) ] ]);
                    ("systemInstruction", JObj [ ("parts", JArr [ JObj [ ("text", JStr "Be brief") ] ]) ]) ]))) ].
Proof.
  exact (v8_theorem outbound_payload_shape sample_request offline).
Defined.

(** The specification's example of a failure: status 429 with the body
    [{ "error": "rate limited" }]. *)
Lemma upstream_failure_forwarded_witness :
  ok (mkApiResponse 429 (Resolved (JObj [ ("error", JStr "rate limited") ]))) = false
  /\ replies (new_events (v8_handler sample_request)
                (answering 429 (Resolved (JObj [ ("error", JStr "rate limited") ]))))
     = [ (429%Z,
          JObj [ ("error", JStr "Gemini API call failed with status 429");
                 ("details", JObj [ ("error", JStr "rate limited") ]) ]) ].
Proof.
  split; [reflexivity |].
  refine (v8_theorem upstream_failure_forwarded sample_request
            (answering 429 (Resolved (JObj [ ("error", JStr "rate limited") ])))
            "secret"
            (mkApiResponse 429 (Resolved (JObj [ ("error", JStr "rate limited") ])))
            (JObj [ ("error", JStr "rate limited") ])
            _ _ _ _ _ _);
    reflexivity.
Defined.

(** A failure whose body is no JSON, as a gateway's HTML page: [json()]
    rejects before the status is looked at, and the caller gets 500 where the
    upstream said 502. *)
Lemma unparsable_failure_body_is_not_forwarded :
  let resp := mkApiResponse 502
                (Rejected (mkError "SyntaxError" "Unexpected token < in JSON at position 0")) in
  let w := stub_world (Some "secret") (Resolved resp) in
  method sample_request = "POST"
  /\ upstream_answer stub_stringify w "secret" sample_request = Resolved resp
  /\ ok resp = false
  /\ status resp = 502%Z
  /\ replies (new_events (v8_handler sample_request) w)
     = [ (500%Z,
          JObj [ ("error", JStr "Internal Server Error during proxy processing.");
                 ("details", JStr "Unexpected token < in JSON at position 0") ]) ]
  /\ ~ (exists payload,
          In (status resp, payload) (replies (new_events (v8_handler sample_request) w))).
Proof.
  cbv zeta. repeat (split; [reflexivity |]).
  intros [payload [H | []]]. discriminate H.
Qed.

Lemma missing_credential_stops_before_upstream_witness :
  env (stub_world None (Resolved (mkApiResponse 200 (Resolved JNull)))) "GEMINI_API_KEY" = None
  /\ outbound_calls
       (new_events (v8_handler sample_request)
          (stub_world None (Resolved (mkApiResponse 200 (Resolved JNull))))) = [].
Proof.
  split; [reflexivity |].
  refine (proj2 (v8_theorem missing_credential_stops_before_upstream sample_request
                   (stub_world None (Resolved (mkApiResponse 200 (Resolved JNull)))) _ _));
    reflexivity.
Defined.

Lemma method_gate_is_terminal_witness :
  exists reason,
    v8_handler (mkRequest "GET" JUndefined) offline
    = (Normal tt, emit (Reply 405 (JObj [ ("error", JStr reason) ])) offline)
    /\ new_events (v8_handler (mkRequest "GET" JUndefined)) offline
       = [ Reply 405 (JObj [ ("error", JStr reason) ]) ].
Proof.
  refine (v8_theorem method_gate_is_terminal (mkRequest "GET" JUndefined) offline _).
  discriminate.
Defined.

(** The specification's example: status 200 with no candidates. *)
Lemma empty_upstream_result_is_500_witness :
  text_at_path (JObj []) = None
  /\ replies (new_events (v8_handler sample_request) (answering 200 (Resolved (JObj []))))
     = [ (500%Z, JObj [ ("error", JStr "Gemini API returned an empty or invalid response.") ]) ].
Proof.
  split; [reflexivity |].
  refine (v8_theorem empty_upstream_result_is_500 sample_request
            (answering 200 (Resolved (JObj []))) "secret"
            (mkApiResponse 200 (Resolved (JObj []))) (JObj [])
            _ _ _ _ _ _ _ _);
    try reflexivity.
  left. reflexivity.
Defined.

(** Status 200 with the JSON text [null]: no text at the path, and the reply
    is the internal error of the [catch] block, not the empty-response one. *)
Lemma null_response_is_an_internal_error :
  let resp := mkApiResponse 200 (Resolved JNull) in
  let w := stub_world (Some "secret") (Resolved resp) in
  method sample_request = "POST"
  /\ upstream_answer stub_stringify w "secret" sample_request = Resolved resp
  /\ ok resp = true
  /\ text_at_path JNull = None
  /\ replies (new_events (v8_handler sample_request) w)
     = [ (500%Z,
          JObj [ ("error", JStr "Internal Server Error during proxy processing.");
                 ("details", JStr "Cannot read properties of null (reading 'candidates')") ]) ]
  /\ replies (new_events (v8_handler sample_request) w)
     <> [ (500%Z, JObj [ ("error", JStr "Gemini API returned an empty or invalid response.") ]) ].
Proof.
  cbv zeta. repeat (split; [reflexivity |]).
  discriminate.
Qed.

(** The specification's example of a network failure. *)
Lemma exceptions_become_500_witness :
  v8_handler sample_request offline
  = (Normal tt,
     emit (Reply 500 (JObj [ ("error", JStr "Internal Server Error during proxy processing.");
                             ("details", JStr "fetch failed") ]))
       (snd (handler_try stub_stringify v8_read_of_nullish v8_destructure_of_nullish
               sample_request offline))).
Proof.
  refine (proj1 (proj2 (v8_theorem exceptions_become_500 sample_request offline))
            (mkError "TypeError" "fetch failed") _ _ _);
    reflexivity.
Defined.

Lemma model_is_ignored_witness :
  v8_handler sample_request offline
  = v8_handler
      (mkRequest "POST"
         (JObj [ ("prompt", JStr "Summarise the ROI");
                 ("systemInstruction", JStr "Be brief");
                 ("model", JStr "another-model") ]))
      offline.
Proof.
  refine (proj1 (v8_theorem model_is_ignored sample_request
                   (mkRequest "POST"
                      (JObj [ ("prompt", JStr "Summarise the ROI");
                              ("systemInstruction", JStr "Be brief");
                              ("model", JStr "another-model") ]))
                   offline _ _)).
  - reflexivity.
  - unfold same_but_model, sample_request. cbn [body own_property].
    intros k Hk.
    destruct ("prompt" =? k); [reflexivity |].
    destruct ("systemInstruction" =? k); [reflexivity |].
    destruct (String.eqb_spec "model" k) as [E | _]; [| reflexivity].
    elim Hk. symmetry. exact E.
Defined.

(** The same request served twice by one process: the second invocation
    starts from the world the first one left. *)
Lemma handler_is_stateless_witness :
  let w1 := answering 200 (Resolved (candidate_response (JStr "Result text"))) in
  let w2 := snd (v8_handler sample_request w1) in
  log w1 <> log w2
  /\ new_events (v8_handler sample_request) w1 = new_events (v8_handler sample_request) w2.
Proof.
  cbv zeta. split; [discriminate |].
  refine (proj1 (proj2 (v8_theorem handler_is_stateless sample_request
                          (answering 200 (Resolved (candidate_response (JStr "Result text"))))
                          (snd (v8_handler sample_request
                                  (answering 200 (Resolved (candidate_response (JStr "Result text"))))))
                          _ _))).
  - reflexivity.
  - intros url init. reflexivity.
Defined.

(** A candidate without content. *)
Lemma extraction_is_total_below_the_root_witness :
  text_at_path (JObj [ ("candidates", JArr [ JObj [ ("finishReason", JStr "SAFETY") ] ]) ]) = None
  /\ replies (new_events (v8_handler sample_request)
                (answering 200
                   (Resolved (JObj [ ("candidates", JArr [ JObj [ ("finishReason", JStr "SAFETY") ] ]) ]))))
     = [ (500%Z, JObj [ ("error", JStr "Gemini API returned an empty or invalid response.") ]) ].
Proof.
  split; [reflexivity |].
  refine (proj2 (proj2 (proj2 (v8_theorem extraction_is_total_below_the_root
                                 (JObj [ ("candidates", JArr [ JObj [ ("finishReason", JStr "SAFETY") ] ]) ])
                                 _) _)
                   sample_request
                   (answering 200
                      (Resolved (JObj [ ("candidates", JArr [ JObj [ ("finishReason", JStr "SAFETY") ] ]) ])))
                   "secret"
                   (mkApiResponse 200
                      (Resolved (JObj [ ("candidates", JArr [ JObj [ ("finishReason", JStr "SAFETY") ] ]) ])))
                   _ _ _ _ _ _));
    reflexivity.
Defined.

(** The read of the text is not total at the root: on the JSON text [null]
    it raises a TypeError, and the [try] block ends in that exception. *)
Lemma extraction_raises_on_null :
  generated_text v8_read_of_nullish JNull
  = Throw (mkError "TypeError" "Cannot read properties of null (reading 'candidates')")
  /\ ok (mkApiResponse 200 (Resolved JNull)) = true
  /\ fst (handler_try stub_stringify v8_read_of_nullish v8_destructure_of_nullish
            sample_request (answering 200 (Resolved JNull)))
     = Throw (mkError "TypeError" "Cannot read properties of null (reading 'candidates')")
  /\ ~ In (500%Z, JObj [ ("error", JStr "Gemini API returned an empty or invalid response.") ])
          (replies (new_events (v8_handler sample_request) (answering 200 (Resolved JNull)))).
Proof.
  repeat (split; [reflexivity |]).
  intros [H | []]. discriminate H.
Qed.

(** ** Concrete runs of the further behaviour *)

Lemma empty_credential_is_missing_witness :
  new_events (v8_handler sample_request)
    (stub_world (Some "") (Resolved (mkApiResponse 200 (Resolved (candidate_response (JStr "Result text"))))))
  = [ EnvRead "GEMINI_API_KEY";
      Reply 500 (JObj [ ("error", JStr "Server configuration error: GEMINI_API_KEY environment variable is missing.") ]) ].
Proof.
  refine (v8_theorem empty_credential_is_missing sample_request
            (stub_world (Some "") (Resolved (mkApiResponse 200 (Resolved (candidate_response (JStr "Result text"))))))
            _ _);
    reflexivity.
Defined.

Lemma missing_body_is_internal_error_witness :
  new_events (v8_handler (mkRequest "POST" JUndefined)) offline
  = [ EnvRead "GEMINI_API_KEY";
      Reply 500 (JObj [ ("error", JStr "Internal Server Error during proxy processing.");
                        ("details", JStr "Cannot destructure property 'prompt' of 'request.body' as it is undefined.") ]) ].
Proof.
  refine (v8_theorem missing_body_is_internal_error (mkRequest "POST" JUndefined)
            offline "secret" _ _ _);
    reflexivity.
Defined.

Lemma success_reply_is_sound_witness :
  exists key resp v t,
    method sample_request = "POST"
    /\ credential (answering 200 (Resolved (candidate_response (JStr "Result text")))) = Some key
    /\ upstream_answer stub_stringify
         (answering 200 (Resolved (candidate_response (JStr "Result text")))) key sample_request
       = Resolved resp
    /\ ok resp = true
    /\ json resp = Resolved v
    /\ text_at_path v = Some t
    /\ to_boolean t = true
    /\ JObj [ ("summary", JStr "Result text") ] = JObj [ ("summary", t) ].
Proof.
  refine (proj2 (v8_theorem success_reply_is_sound sample_request
                   (answering 200 (Resolved (candidate_response (JStr "Result text"))))
                   200%Z (JObj [ ("summary", JStr "Result text") ]) _ _)).
  - left. reflexivity.
  - lia.
Defined.

Lemma failure_replies_carry_error_witness :
  exists reason,
    member_of (JObj [ ("error", JStr "Gemini API call failed with status 429");
                      ("details", JObj [ ("error", JStr "rate limited") ]) ]) "error"
    = JStr reason
    /\ reason <> "".
Proof.
  refine (v8_theorem failure_replies_carry_error sample_request
            (answering 429 (Resolved (JObj [ ("error", JStr "rate limited") ])))
            429%Z
            (JObj [ ("error", JStr "Gemini API call failed with status 429");
                    ("details", JObj [ ("error", JStr "rate limited") ]) ]) _ _).
  - left. reflexivity.
  - discriminate.
Defined.

Lemma credential_only_reaches_upstream_witness :
  outbound_calls (new_events (v8_handler sample_request)
                    (answering 200 (Resolved (candidate_response (JStr "Result text")))))
  <> outbound_calls (new_events (v8_handler sample_request)
                       (stub_world (Some "rotated")
                          (Resolved (mkApiResponse 200 (Resolved (candidate_response (JStr "Result text")))))))
  /\ replies (new_events (v8_handler sample_request)
                (answering 200 (Resolved (candidate_response (JStr "Result text")))))
     = replies (new_events (v8_handler sample_request)
                  (stub_world (Some "rotated")
                     (Resolved (mkApiResponse 200 (Resolved (candidate_response (JStr "Result text"))))))).
Proof.
  split; [discriminate |].
  refine (v8_theorem credential_only_reaches_upstream sample_request
            (answering 200 (Resolved (candidate_response (JStr "Result text"))))
            (stub_world (Some "rotated")
               (Resolved (mkApiResponse 200 (Resolved (candidate_response (JStr "Result text"))))))
            "secret" "rotated" _ _ _);
    reflexivity.
Defined.

(** A number where the text is expected: 42 is relayed as the summary. *)
Lemma reply_follows_truthiness_witness :
  replies (new_events (v8_handler sample_request)
             (answering 200 (Resolved (candidate_response (JNum (S754_finite false 21 1))))))
  = [ (200%Z, JObj [ ("summary", JNum (S754_finite false 21 1)) ]) ].
Proof.
  refine (v8_theorem reply_follows_truthiness sample_request
            (answering 200 (Resolved (candidate_response (JNum (S754_finite false 21 1)))))
            "secret"
            (mkApiResponse 200 (Resolved (candidate_response (JNum (S754_finite false 21 1)))))
            (candidate_response (JNum (S754_finite false 21 1)))
            (JNum (S754_finite false 21 1))
            _ _ _ _ _ _ _);
    reflexivity.
Defined.

(** A body that is a bare string runs like the empty object. *)
Lemma body_read_through_two_fields_witness :
  v8_handler (mkRequest "POST" (JStr "Summarise the ROI")) offline
  = v8_handler (mkRequest "POST" (JObj [])) offline.
Proof.
  refine (v8_theorem body_read_through_two_fields
            (mkRequest "POST" (JStr "Summarise the ROI")) (mkRequest "POST" (JObj []))
            offline _ _ _ _ _);
    reflexivity.
Defined.

Lemma reply_codes_witness :
  429%Z = 405%Z \/ 429%Z = 500%Z \/ 429%Z = 200%Z
  \/ exists key resp,
       credential (answering 429 (Resolved (JObj [ ("error", JStr "rate limited") ]))) = Some key
       /\ upstream_answer stub_stringify
            (answering 429 (Resolved (JObj [ ("error", JStr "rate limited") ]))) key sample_request
          = Resolved resp
       /\ ok resp = false
       /\ 429%Z = status resp.
Proof.
  refine (v8_theorem reply_codes sample_request
            (answering 429 (Resolved (JObj [ ("error", JStr "rate limited") ])))
            429%Z
            (JObj [ ("error", JStr "Gemini API call failed with status 429");
                    ("details", JObj [ ("error", JStr "rate limited") ]) ]) _).
  left. reflexivity.
Defined.

Lemma network_failure_is_500_witness :
  replies (new_events (v8_handler sample_request) offline)
  = [ (500%Z,
       JObj [ ("error", JStr "Internal Server Error during proxy processing.");
              ("details", JStr "fetch failed") ]) ]
  /\ length (outbound_calls (new_events (v8_handler sample_request) offline)) = 1.
Proof.
  unfold v8_handler.
  rewrite (v8_theorem network_failure_is_500 sample_request offline "secret"
             (mkError "TypeError" "fetch failed") eq_refl eq_refl eq_refl eq_refl).
  split; reflexivity.
Defined.

(** Status 200 with a body that is no JSON. *)
Lemma unparsable_answer_is_500_witness :
  replies (new_events (v8_handler sample_request)
             (answering 200 (Rejected (mkError "SyntaxError" "Unexpected end of JSON input"))))
  = [ (500%Z,
       JObj [ ("error", JStr "Internal Server Error during proxy processing.");
              ("details", JStr "Unexpected end of JSON input") ]) ].
Proof.
  refine (v8_theorem unparsable_answer_is_500 sample_request
            (answering 200 (Rejected (mkError "SyntaxError" "Unexpected end of JSON input")))
            "secret"
            (mkApiResponse 200 (Rejected (mkError "SyntaxError" "Unexpected end of JSON input")))
            (mkError "SyntaxError" "Unexpected end of JSON input")
            _ _ _ _ _);
    reflexivity.
Defined.
